(** * Main.py: trade-show lead capture and quotation front-end

    A shallow embedding of the request handlers of [Main.py] and of the
    helpers they call.  Python strings are sequences of Unicode code
    points; remote services (the Odoo ERP, the Clientify CRM, the VIES
    VAT service, the price file) are an oracle that answers every call
    with a value or with an exception; handlers run in a small monad
    that threads the session, records every call, log line and flash
    message in a trace, and propagates exceptions the way Python does. *)

From Stdlib Require Import String Ascii.
From stdpp Require Import base tactics option list numbers gmap strings.

Open Scope N_scope.
Open Scope Z_scope.
Open Scope list_scope.

(** ** Python strings *)

(** A [str] is a list of code points. *)
Abbreviation pystr := (list N).

Definition py (s : string) : pystr := N_of_ascii <$> list_ascii_of_string s.

(** The character tables of the interpreter beyond ASCII, and the
    string operations that depend on them, are not part of the program:
    they are an interface the model is parametric in.  On ASCII input
    every operation below is computed. *)
Class Unicode := {
  uni_isspace : N → bool;
  uni_isalpha : N → bool;
  uni_isdigit : N → bool;
  uni_lower : pystr → pystr;
  uni_upper : pystr → pystr;
  uni_int : pystr → option Z
}.

(** An interpreter whose tables hold nothing beyond ASCII; used to run
    the model on concrete inputs. *)
Definition ascii_only : Unicode := {|
  uni_isspace := λ _, false;
  uni_isalpha := λ _, false;
  uni_isdigit := λ _, false;
  uni_lower := λ s, s;
  uni_upper := λ s, s;
  uni_int := λ _, None
|}.

Definition is_ascii (c : N) : bool := (c <? 128)%N.

Definition in_range (lo hi c : N) : bool := (lo <=? c)%N && (c <=? hi)%N.

Section strings.
Context {U : Unicode}.

(** [str.isspace] on one character: TAB..CR, FS..US and SPACE in ASCII. *)
Definition isspace (c : N) : bool :=
  if is_ascii c
  then in_range 9 13 c || in_range 28 31 c || (c =? 32)%N
  else uni_isspace c.

Definition isalpha_char (c : N) : bool :=
  if is_ascii c
  then in_range 65 90 c || in_range 97 122 c
  else uni_isalpha c.

Definition isdigit_char (c : N) : bool :=
  if is_ascii c then in_range 48 57 c else uni_isdigit c.

(** [s.isalpha()]: every character alphabetic and at least one character. *)
Definition isalpha (s : pystr) : bool :=
  match s with [] => false | _ => forallb isalpha_char s end.

Definition isdigit (s : pystr) : bool :=
  match s with [] => false | _ => forallb isdigit_char s end.

Fixpoint lstrip (s : pystr) : pystr :=
  match s with
  | [] => []
  | c :: s' => if isspace c then lstrip s' else s
  end.

Definition rstrip (s : pystr) : pystr := reverse (lstrip (reverse s)).

(** [s.strip()] *)
Definition strip (s : pystr) : pystr := rstrip (lstrip s).

Definition lower_char (c : N) : N :=
  if in_range 65 90 c then (c + 32)%N else c.

Definition upper_char (c : N) : N :=
  if in_range 97 122 c then (c - 32)%N else c.

(** [s.lower()] and [s.upper()] *)
Definition lower (s : pystr) : pystr :=
  if forallb is_ascii s then lower_char <$> s else uni_lower s.

Definition upper (s : pystr) : pystr :=
  if forallb is_ascii s then upper_char <$> s else uni_upper s.

(** *** [int(s)] on a string

    Surrounding whitespace is skipped (on an ASCII string, the
    whitespace of the C locale: TAB..CR and SPACE), one sign is
    allowed, and the digits may be separated by single underscores. *)
Definition c_isspace (c : N) : bool := in_range 9 13 c || (c =? 32)%N.

Fixpoint skip_spaces (s : pystr) : pystr :=
  match s with
  | [] => []
  | c :: s' => if c_isspace c then skip_spaces s' else s
  end.

Definition digit_val (c : N) : option Z :=
  if in_range 48 57 c then Some (Z.of_N c - 48) else None.

Fixpoint int_digits (acc : Z) (prev_digit : bool) (s : pystr) : option Z :=
  match s with
  | [] => if prev_digit then Some acc else None
  | c :: s' =>
      match digit_val c with
      | Some d => int_digits (10 * acc + d) true s'
      | None =>
          if (c =? 95)%N && prev_digit
          then int_digits acc false s'
          else None
      end
  end.

Definition int_ascii (s : pystr) : option Z :=
  match skip_spaces (reverse (skip_spaces (reverse s))) with
  | 45 :: ds => Z.opp <$> int_digits 0 false ds
  | 43 :: ds => int_digits 0 false ds
  | ds => int_digits 0 false ds
  end%N.

(** [None] stands for [ValueError]. *)
Definition int_of_str (s : pystr) : option Z :=
  if forallb is_ascii s then int_ascii s else uni_int s.

(** *** [markupsafe.escape]

    The five HTML special characters are replaced by their entities. *)
Definition escape_char (c : N) : pystr :=
  if (c =? 38)%N then py "&amp;"
  else if (c =? 60)%N then py "&lt;"
  else if (c =? 62)%N then py "&gt;"
  else if (c =? 39)%N then py "&#39;"
  else if (c =? 34)%N then py "&#34;"
  else [c].

Definition escape (s : pystr) : pystr := s ≫= escape_char.

Definition html_entities : list pystr :=
  [py "&amp;"; py "&lt;"; py "&gt;"; py "&#39;"; py "&#34;"].

(** ** Input validation helpers *)

(** [sanitize_string(value)]; [None] is an absent value. *)
Definition sanitize_string (value : option pystr) : pystr :=
  match value with
  | None | Some [] => []
  | Some v => escape (strip v)
  end.

End strings.

(** ** Regular expressions, as [re.match] uses them *)

Inductive regex :=
| re_none
| re_eps
| re_class (p : N → bool)
| re_cat (r1 r2 : regex)
| re_alt (r1 r2 : regex)
| re_star (r : regex).

Definition re_chr (c : N) : regex := re_class (N.eqb c).
Definition re_plus (r : regex) : regex := re_cat r (re_star r).

Fixpoint nullable (r : regex) : bool :=
  match r with
  | re_none => false
  | re_eps => true
  | re_class _ => false
  | re_cat r1 r2 => nullable r1 && nullable r2
  | re_alt r1 r2 => nullable r1 || nullable r2
  | re_star _ => true
  end.

Fixpoint deriv (c : N) (r : regex) : regex :=
  match r with
  | re_none | re_eps => re_none
  | re_class p => if p c then re_eps else re_none
  | re_cat r1 r2 =>
      if nullable r1
      then re_alt (re_cat (deriv c r1) r2) (deriv c r2)
      else re_cat (deriv c r1) r2
  | re_alt r1 r2 => re_alt (deriv c r1) (deriv c r2)
  | re_star r1 => re_cat (deriv c r1) (re_star r1)
  end.

(** The whole string is in the language of [r]. *)
Definition re_fullmatch (r : regex) (s : pystr) : bool :=
  nullable (foldl (λ r c, deriv c r) r s).

Definition ascii_letter (c : N) : bool := in_range 65 90 c || in_range 97 122 c.
Definition ascii_alnum (c : N) : bool := ascii_letter c || in_range 48 57 c.

(** [[a-zA-Z0-9._%+-]] *)
Definition email_local_char (c : N) : bool :=
  ascii_alnum c || bool_decide (c ∈ [46; 95; 37; 43; 45]%N).

(** [[a-zA-Z0-9.-]] *)
Definition email_domain_char (c : N) : bool :=
  ascii_alnum c || bool_decide (c ∈ [46; 45]%N).

(** [^[a-zA-Z0-9._%+-]+@[a-zA-Z0-9.-]+\.[a-zA-Z]{2,}$]; the closing [$]
    also matches just before a newline that ends the string. *)
Definition email_pattern : regex :=
  re_cat (re_plus (re_class email_local_char))
 (re_cat (re_chr 64)
 (re_cat (re_plus (re_class email_domain_char))
 (re_cat (re_chr 46)
 (re_cat (re_class ascii_letter)
 (re_cat (re_plus (re_class ascii_letter))
         (re_alt re_eps (re_chr 10))))))).

(** [validate_email(email)] *)
Definition validate_email (email : pystr) : bool :=
  match email with
  | [] => false
  | _ => re_fullmatch email_pattern email
  end.

(** ** Configuration

    The module-level constants read from the environment. *)
Class Config := {
  CLIENTIFY_ENABLED : bool;
  TAG_NAME : pystr;
  SALES_TEAM_ID : Z;
  PRICELIST_ORDER_ID : Z;
  PRICELIST_MAYORISTA_ID : Z;
  PRICELIST_DEFAULT_ID : Z;
  TAG_MAYORISTA_ID : Z;
  TAG_CLINICA_DENTAL_ID : Z;
  TAG_LABORATORIO_ID : Z;
  TAG_ESTUDIANTE_ID : Z;
  TAG_OTROS_ID : Z;
  MANDATORY_TAG_IDS : list Z;
  WAREHOUSE_ID : Z
}.

(** The values the constants take when the environment sets none. *)
Definition default_config : Config := {|
  CLIENTIFY_ENABLED := true;
  TAG_NAME := py "Expodental-2026";
  SALES_TEAM_ID := 22;
  PRICELIST_ORDER_ID := 48;
  PRICELIST_MAYORISTA_ID := 32;
  PRICELIST_DEFAULT_ID := 33;
  TAG_MAYORISTA_ID := 2;
  TAG_CLINICA_DENTAL_ID := 3;
  TAG_LABORATORIO_ID := 4;
  TAG_ESTUDIANTE_ID := 5;
  TAG_OTROS_ID := 15;
  MANDATORY_TAG_IDS := [319; 403];
  WAREHOUSE_ID := 19
|}.

(** ** Data exchanged with the remote services

    The services are taken to answer with data of the shape the
    handlers read: character fields of a partner are strings, a
    contact of a search result has an identifier, and an answer with
    status 200 has a JSON body.  An answer of another shape makes the
    handler raise, like the exceptions the oracle can give. *)

(** A decimal number [num_mantissa * 10 ^ num_exp10]; numbers are only
    carried from one service to another, never computed with. *)
Record number := { num_mantissa : Z; num_exp10 : Z }.

(** A value of the price file. *)
Inductive json := JNull | JNumber (n : number).

(** The values dictionary of [res.partner] [write] and [create];
    [None] is Odoo's [False]. *)
Record partner_vals := {
  pv_name : pystr;
  pv_vat : option pystr;
  pv_email : pystr;
  pv_street : pystr;
  pv_city : pystr;
  pv_state_id : option Z;
  pv_country_id : option Z;
  pv_phone : pystr;
  pv_mobile : pystr;
  pv_zip : pystr;
  pv_category_id : list Z;
  pv_property_product_pricelist : Z
}.

Record order_vals := {
  ov_partner_id : option Z;
  ov_pricelist_id : Z;
  ov_fiscal_position_id : Z;
  ov_client_order_ref : pystr;
  ov_team_id : Z
}.

(** [price_unit] is a key of the dictionary only when it is [Some]. *)
Record line_vals := {
  lv_order_id : Z;
  lv_product_id : Z;
  lv_product_uom_qty : Z;
  lv_price_unit : option number
}.

(** What [read] returns of a [sale.order] and of a [res.partner]. *)
Record order_rec := {
  o_amount_total : option number;
  o_partner_id : option Z
}.

Record partner_rec := {
  p_name : pystr;
  p_email : pystr;
  p_phone : pystr;
  p_company_name : option pystr;
  p_category_id : list Z
}.

Record line_rec := {
  l_product_id : Z;
  l_name : pystr;
  l_product_uom_qty : Z;
  l_price_total : number
}.

(** A Clientify contact of a search result; an absent key is [None]. *)
Record contact := {
  c_id : Z;
  c_email : option pystr;
  c_tags : option (list pystr)
}.

Record search_response := {
  sr_status_code : Z;
  sr_results : list contact
}.

(** The JSON body of a contact [PATCH]; [contact_type] is a key only
    when it is [Some]. *)
Record update_data := {
  ud_tags : list pystr;
  ud_contact_source : pystr;
  ud_contact_type : option pystr
}.

Record create_data := {
  cd_name : pystr;
  cd_email : pystr;
  cd_phone : pystr;
  cd_company : pystr;
  cd_tags : list pystr;
  cd_contact_source : pystr;
  cd_contact_type : option pystr
}.

Record create_response := {
  cr_status_code : Z;
  cr_id : option Z
}.

(** The [client_data] dictionary [confirm_presupuesto] builds. *)
Record client_info := {
  ci_name : pystr;
  ci_email : pystr;
  ci_phone : pystr;
  ci_company : pystr;
  ci_customer_tag : option pystr
}.

(** ** Remote calls, exceptions and the handler monad *)

Inductive exn :=
| ConnectionError
| XmlRpcFault
| ValueError
| KeyError
| IndexError
| TypeError
| FileNotFoundError
| JSONDecodeError.

Global Instance exn_eq_dec : EqDecision exn.
Proof. solve_decision. Defined.

Inductive outcome (A : Type) :=
| Returns (a : A)
| Raises (e : exn).
Arguments Returns {A} a.
Arguments Raises {A} e.

(** Every call a handler makes to the outside, indexed by the type of
    what it returns. *)
Inductive call : Type → Type :=
| common_authenticate : call (option Z)
| search_state (name : pystr) : call (list Z)
| search_country (name : pystr) : call (list Z)
| search_partner (vat email : pystr) : call (list Z)
| write_partner (ids : list Z) (vals : partner_vals) : call bool
| create_partner (vals : partner_vals) : call (option Z)
| create_order (vals : order_vals) : call (option Z)
| search_product (default_code : pystr) : call (list Z)
| create_line (vals : line_vals) : call (option Z)
| read_order (id : Z) : call (list order_rec)
| search_read_lines (order_id : Z) : call (list line_rec)
| read_partner (id : Z) : call (list partner_rec)
| write_warehouse (ids : list Z) (warehouse_id : Z) : call bool
| action_confirm (ids : list Z) : call unit
| requests_get_contacts (search : pystr) : call search_response
| requests_patch_contact (id : Z) (data : update_data) : call Z
| requests_patch_valor_pedido (id : Z) (value : number) : call Z
| requests_post_contact (data : create_data) : call create_response
| zeep_Client : call unit
| checkVat (country_code vat_number : pystr) : call bool
| load_price_list : call (list (pystr * json)).

Inductive level := INFO | WARNING | ERROR.

Inductive event :=
| ev_call {R : Type} (c : call R)
| ev_log (l : level) (msg : string)
| ev_flash (msg category : string).

(** The outside world answers a call knowing what happened before it. *)
Definition world := ∀ R, list event → call R → outcome R.

Record state := {
  st_session : gmap string Z;
  st_trace : list event
}.

Definition M (A : Type) : Type := world → state → state * outcome A.

Global Instance M_ret : MRet M := λ A a _ s, (s, Returns a).

Global Instance M_bind : MBind M := λ A B f m w s,
  match m w s with
  | (s', Returns a) => f a w s'
  | (s', Raises e) => (s', Raises e)
  end.

Definition raise {A} (e : exn) : M A := λ _ s, (s, Raises e).

(** [try: m except <class>: h], for the exceptions [catches] accepts. *)
Definition try_except {A} (catches : exn → bool) (m : M A) (h : exn → M A) : M A :=
  λ w s,
    match m w s with
    | (s', Raises e) => if catches e then h e w s' else (s', Raises e)
    | r => r
    end.

(** [except Exception] *)
Definition Exception : exn → bool := λ _, true.

Definition emit (e : event) : M () := λ _ s,
  ({| st_session := st_session s; st_trace := st_trace s ++ [e] |}, Returns ()).

Definition perform {R} (c : call R) : M R := λ w s,
  ({| st_session := st_session s; st_trace := st_trace s ++ [ev_call c] |},
   w R (st_trace s) c).

Definition logger (l : level) (msg : string) : M () := emit (ev_log l msg).
Definition flash (msg category : string) : M () := emit (ev_flash msg category).

Definition session_set (key : string) (v : Z) : M () := λ _ s,
  ({| st_session := <[key := v]> (st_session s); st_trace := st_trace s |}, Returns ()).

Definition session_get (key : string) : M (option Z) := λ _ s,
  (s, Returns (st_session s !! key)).

(** Truth value of an identifier that may be [False], [None] or [0]. *)
Definition truthy (x : option Z) : bool :=
  match x with Some z => negb (z =? 0) | None => false end.

(** What a handler answers the browser with. *)
Inductive response :=
| redirect_index
| redirect_create_presupuesto (vat : pystr)
| redirect_presupuesto_details (presupuesto_id : Z)
| redirect_payment (presupuesto_id : Z)
| jsonify_error (msg : string)
| render_presupuesto (presupuesto_data : order_rec) (presupuesto_id : Z)
    (sale_order_lines : list line_rec).

Inductive http_method := GET | POST.

(** ** The handlers

    Log lines are recorded with their level and fixed text, without the
    interpolated values.  Building an XML-RPC [ServerProxy] opens no
    connection and is not a call; [Client(wsdl)] of zeep fetches the
    service description and is one. *)
Section handlers.
Context {U : Unicode} {cfg : Config}.

Definition nonempty {A} (l : list A) : bool :=
  match l with [] => false | _ => true end.

Definition in_list (x : pystr) (l : list pystr) : bool := bool_decide (x ∈ l).

Definition status_in (code : Z) (codes : list Z) : bool := bool_decide (code ∈ codes).

Definition recognized : list pystr :=
  [py "mayorista"; py "laboratorio"; py "clinica_dental"; py "estudiante"; py "otros"].

Definition tipo_display_map : gmap pystr pystr :=
  list_to_map
    [(py "mayorista", py "Mayorista");
     (py "laboratorio", py "Laboratorio Dental");
     (py "clinica_dental", py "Clinica Dental");
     (py "estudiante", py "Estudiante de Odontologia");
     (py "otros", py "Otros")].

(** [tipo and tipo in [...]] for the five recognized values *)
Definition tipo_recognized (tipo : option pystr) : bool :=
  match tipo with
  | Some t => nonempty t && in_list t recognized
  | None => false
  end.

(** [odoo_authenticate()] *)
Definition odoo_authenticate : M (option Z) :=
  try_except Exception
    (perform common_authenticate)
    (λ _, logger ERROR "Erro ao autenticar no Odoo";; mret None).

(** [create_or_update_client_in_clientify(client_data)]; returns
    [(tag_reconhecida, client_id)]. *)
Definition create_or_update_client_in_clientify (client_data : client_info)
  : M (option pystr * option Z) :=
  if negb CLIENTIFY_ENABLED then
    logger INFO "Clientify desativado (.env CLIENTIFY_ENABLED=False). Operação ignorada.";;
    mret (None, None)
  else
    (* the block after the [if]: the contact does not exist, create it *)
    let create_new (_ : ()) : M (option pystr * option Z) :=
      let tipo := ci_customer_tag client_data in
      let tags :=
        match tipo with
        | Some t => if tipo_recognized tipo
                    then [t; TAG_NAME; py "Expodental 2026"]
                    else [TAG_NAME; py "Expodental 2026"]
        | None => [TAG_NAME; py "Expodental 2026"]
        end in
      let tag_reconhecida := if tipo_recognized tipo then tipo else None in
      let contact_type_clientify := tipo ≫= (tipo_display_map !!.) in
      let data := {|
        cd_name := ci_name client_data;
        cd_email := ci_email client_data;
        cd_phone := ci_phone client_data;
        cd_company := if nonempty (strip (ci_company client_data))
                      then ci_company client_data
                      else ci_name client_data;
        cd_tags := tags;
        cd_contact_source := py "Expodental 2026";
        cd_contact_type := match contact_type_clientify with
                           | Some t => if nonempty t then Some t else None
                           | None => None
                           end
      |} in
      create_response ← perform (requests_post_contact data);
      if status_in (cr_status_code create_response) [200; 201] then
        match cr_id create_response with
        | Some client_id =>
            logger INFO "Cliente criado com origem Expodental 2026.";;
            mret (tag_reconhecida, Some client_id)
        | None => raise KeyError
        end
      else
        logger ERROR "Erro ao criar cliente";;
        mret (None, None) in
    response ← perform (requests_get_contacts (ci_email client_data));
    if (sr_status_code response =? 200) && nonempty (sr_results response) then
      match List.find
              (λ c, bool_decide (lower (default [] (c_email c))
                                 = lower (ci_email client_data)))
              (sr_results response) with
      | Some exact_match =>
          let client_id := c_id exact_match in
          let existing_tags := default [] (c_tags exact_match) in
          let tag_reconhecida :=
            List.find (λ tag, in_list tag recognized) existing_tags in
          let novas_tags :=
            if in_list (py "Expodental 2026") existing_tags
            then existing_tags
            else existing_tags ++ [py "Expodental 2026"] in
          let tipo := ci_customer_tag client_data in
          let append_tipo :=
            match tipo with
            | Some t => nonempty t && negb (in_list t novas_tags)
                        && in_list t recognized
            | None => false
            end in
          let novas_tags :=
            match tipo with
            | Some t => if append_tipo then novas_tags ++ [t] else novas_tags
            | None => novas_tags
            end in
          let tag_reconhecida := if append_tipo then tipo else tag_reconhecida in
          let update_data := {|
            ud_tags := novas_tags;
            ud_contact_source := py "Expodental 2026";
            ud_contact_type := tipo ≫= (tipo_display_map !!.)
          |} in
          update_response ← perform (requests_patch_contact client_id update_data);
          (if status_in update_response [200; 204]
           then logger INFO "Cliente atualizado com origem e tags."
           else logger ERROR "Erro ao atualizar cliente");;
          mret (tag_reconhecida, Some client_id)
      | None => create_new ()
      end
    else create_new ().

(** The [tag_mapping] dictionary of [save] *)
Definition tag_mapping : gmap pystr Z :=
  list_to_map
    [(py "clinica_dental", TAG_CLINICA_DENTAL_ID);
     (py "laboratorio", TAG_LABORATORIO_ID);
     (py "estudiante", TAG_ESTUDIANTE_ID);
     (py "mayorista", TAG_MAYORISTA_ID);
     (py "otros", TAG_OTROS_ID)].

(** [request.form.get(key, '')] *)
Definition form_get (form : gmap string pystr) (key : string) : pystr :=
  default [] (form !! key).

(** [save()], on the submitted form *)
Definition save (form : gmap string pystr) : M response :=
  let name := strip (form_get form "name") in
  let vat := strip (form_get form "vat") in
  let email := strip (form_get form "email") in
  let street := strip (form_get form "street") in
  let city := strip (form_get form "city") in
  let state_name := strip (form_get form "state") in
  let country_name := strip (form_get form "country") in
  let phone := strip (form_get form "phone") in
  let mobile := strip (form_get form "mobile") in
  let zip_code := strip (form_get form "zip") in
  let customer_tag := strip (form_get form "customer_tag") in
  if negb (nonempty name) then
    flash "El nombre es obligatorio." "error";;
    mret redirect_index
  else if nonempty email && negb (validate_email email) then
    flash "Formato de email no válido." "error";;
    mret redirect_index
  else
    uid ← perform common_authenticate;
    if negb (truthy uid) then mret (jsonify_error "Authentication failed")
    else
      state_id ← perform (search_state state_name);
      country_id ← perform (search_country country_name);
      let tag_id := default TAG_OTROS_ID (tag_mapping !! customer_tag) in
      let mandatory_tags := MANDATORY_TAG_IDS in
      let tag_ids := [tag_id] ++ mandatory_tags in
      let pricelist_id :=
        if bool_decide (tag_id = TAG_MAYORISTA_ID)
        then PRICELIST_MAYORISTA_ID else PRICELIST_DEFAULT_ID in
      existing_partner_ids ← perform (search_partner vat email);
      (* the dictionary both branches write out *)
      let vals := {|
        pv_name := name;
        pv_vat := if nonempty vat && (4 <=? length vat)%nat && isalpha (take 2 vat)
                  then Some vat else None;
        pv_email := email;
        pv_street := street;
        pv_city := city;
        pv_state_id := head state_id;
        pv_country_id := head country_id;
        pv_phone := phone;
        pv_mobile := mobile;
        pv_zip := zip_code;
        pv_category_id := tag_ids;
        pv_property_product_pricelist := pricelist_id
      |} in
      match existing_partner_ids with
      | first :: _ =>
          perform (write_partner existing_partner_ids vals);;
          session_set "partner_id" first;;
          flash "Datos del cliente actualizados con éxito!" "success";;
          mret (redirect_create_presupuesto vat)
      | [] =>
          new_partner_id ← perform (create_partner vals);
          match new_partner_id with
          | Some id =>
              if truthy new_partner_id then
                session_set "partner_id" id;;
                mret (redirect_create_presupuesto vat)
              else
                flash "Error al crear el cliente." "error";;
                mret (redirect_create_presupuesto vat)
          | None =>
              flash "Error al crear el cliente." "error";;
              mret (redirect_create_presupuesto vat)
          end
      end.

(** [create_presupuesto()], on the [vat] query argument *)
Definition create_presupuesto (vat_arg : option pystr) : M response :=
  match vat_arg with
  | Some vat =>
      if negb (nonempty vat) || (length vat <? 3)%nat then
        flash "NIF/VAT inválido." "error";;
        mret redirect_index
      else
        let country_code := upper (take 2 vat) in
        let number := drop 2 vat in
        fiscal_position_id ←
          (if bool_decide (country_code = py "ES") && (2 <? length vat)%nat
              && isdigit (take 1 (drop 2 vat))
           then mret 1
           else if negb (bool_decide (country_code = py "ES")) then
             client ← perform zeep_Client;
             try_except Exception
               (result ← perform (checkVat country_code number);
                if (result : bool) then mret 4
                else
                  flash "VAT inválido. Será tratado com IVA nacional." "warning";;
                  mret 1)
               (λ _,
                  logger WARNING "Erro ao consultar VIES. Aplicando IVA padrão.";;
                  flash "Error al consultar VAT. Se tratará con IVA nacional." "warning";;
                  mret 1)
           else mret 1);
        uid ← perform common_authenticate;
        if negb (truthy uid) then
          flash "Falha na autenticação com o Odoo." "error";;
          mret redirect_index
        else
          partner_id ← session_get "partner_id";
          presupuesto_id ← perform (create_order {|
            ov_partner_id := partner_id;
            ov_pricelist_id := PRICELIST_ORDER_ID;
            ov_fiscal_position_id := fiscal_position_id;
            ov_client_order_ref := py "Expodental 2026";
            ov_team_id := SALES_TEAM_ID
          |});
          match presupuesto_id with
          | Some id =>
              if truthy presupuesto_id then
                flash "Presupuesto creado con éxito!" "success";;
                mret (redirect_presupuesto_details id)
              else
                flash "Error al crear el Presupuesto." "error";;
                mret redirect_index
          | None =>
              flash "Error al crear el Presupuesto." "error";;
              mret redirect_index
          end
  | None =>
      flash "NIF/VAT inválido." "error";;
      mret redirect_index
  end.

(** [presupuesto_details(presupuesto_id)], for either method *)
Definition presupuesto_details (method : http_method) (form : gmap string pystr)
    (presupuesto_id : Z) : M response :=
  uid ← perform common_authenticate;
  if negb (truthy uid) then
    flash "Falha na autenticação com o Odoo." "error";;
    mret redirect_index
  else
    match method with
    | POST =>
        let product_code := lower (strip (form_get form "product_code")) in
        (* [int(request.form.get('product_qty', 1))] *)
        product_qty ←
          match form !! "product_qty" with
          | None => mret 1
          | Some v =>
              match int_of_str v with
              | Some n => mret n
              | None => raise ValueError
              end
          end;
        if negb (nonempty product_code) then
          flash "Debe introducir un código de producto." "warning"
        else
          custom_prices_lower ←
            try_except (λ e, bool_decide (e = FileNotFoundError))
              (custom_prices ← perform load_price_list;
               mret (foldl (λ (d : gmap pystr json) kv, <[lower kv.1 := kv.2]> d)
                           ∅ custom_prices))
              (λ _, mret ∅);
          let custom_price := custom_prices_lower !! product_code in
          product_ids ← perform (search_product product_code);
          match product_ids with
          | product_id :: _ =>
              let sale_order_line_vals := {|
                lv_order_id := presupuesto_id;
                lv_product_id := product_id;
                lv_product_uom_qty := product_qty;
                lv_price_unit := match custom_price with
                                 | Some (JNumber price) => Some price
                                 | Some JNull | None => None
                                 end
              |} in
              new_line_id ← perform (create_line sale_order_line_vals);
              if truthy new_line_id
              then flash "Producto añadido con éxito!" "success"
              else flash "Error al añadir el producto." "error"
          | [] => flash "Producto no encontrado." "error"
          end
    | GET => mret ()
    end;;
    presupuesto_data ← perform (read_order presupuesto_id);
    match presupuesto_data with
    | data :: _ =>
        sale_order_lines ← perform (search_read_lines presupuesto_id);
        mret (render_presupuesto data presupuesto_id sale_order_lines)
    | [] => raise IndexError
    end.

(** [confirm_presupuesto(presupuesto_id)] *)
Definition confirm_presupuesto (presupuesto_id : Z) : M response :=
  uid ← odoo_authenticate;
  if negb (truthy uid) then
    flash "Falha na autenticação com o Odoo." "error";;
    mret redirect_index
  else
    presupuesto_data ← perform (read_order presupuesto_id);
    match presupuesto_data with
    | [] =>
        flash "Error al buscar el presupuesto." "error";;
        mret redirect_index
    | presupuesto_data :: _ =>
        let total_pedido :=
          default {| num_mantissa := 0; num_exp10 := 0 |}
                  (o_amount_total presupuesto_data) in
        partner_id ←
          match o_partner_id presupuesto_data with
          | Some id => mret id
          | None => raise TypeError
          end;
        partner_rows ← perform (read_partner partner_id);
        partner_data ←
          match partner_rows with
          | row :: _ => mret row
          | [] => raise IndexError
          end;
        let company_value :=
          match p_company_name partner_data with
          | Some c => if nonempty c then c else p_name partner_data
          | None => p_name partner_data
          end in
        let category_ids := p_category_id partner_data in
        let tag_map_reverse : gmap Z pystr :=
          <[TAG_OTROS_ID := py "otros"]>
          (<[TAG_ESTUDIANTE_ID := py "estudiante"]>
          (<[TAG_LABORATORIO_ID := py "laboratorio"]>
          (<[TAG_CLINICA_DENTAL_ID := py "clinica_dental"]>
          (<[TAG_MAYORISTA_ID := py "mayorista"]> ∅)))) in
        let customer_tag :=
          match List.find (λ cat_id, bool_decide (is_Some (tag_map_reverse !! cat_id)))
                          category_ids with
          | Some cat_id => tag_map_reverse !! cat_id
          | None => None
          end in
        let client_info := {|
          ci_name := p_name partner_data;
          ci_email := p_email partner_data;
          ci_phone := p_phone partner_data;
          ci_company := company_value;
          ci_customer_tag := customer_tag
        |} in
        try_except Exception
          (update_result ← perform (write_warehouse [presupuesto_id] WAREHOUSE_ID);
           if (update_result : bool)
           then logger INFO "Armazém atualizado para ID 19 no pedido"
           else mret ())
          (λ _, logger ERROR "Falha ao modificar armazém");;
        (if CLIENTIFY_ENABLED then
           r ← create_or_update_client_in_clientify client_info;
           let clientify_id := r.2 in
           try_except Exception
             (match clientify_id with
              | Some id =>
                  if truthy clientify_id then
                    update_response ← perform (requests_patch_valor_pedido id total_pedido);
                    if status_in update_response [200; 204]
                    then logger INFO "Campo 'Valor Pedido' atualizado no Clientify"
                    else logger ERROR "Erro ao atualizar campo personalizado"
                  else logger WARNING "Cliente não encontrado no Clientify para atualização."
              | None => logger WARNING "Cliente não encontrado no Clientify para atualização."
              end)
             (λ _, logger ERROR "Erro ao atualizar campo personalizado no Clientify")
         else
           logger INFO "Clientify desativado. Atualização de 'Valor Pedido' ignorada.");;
        try_except Exception
          (perform (action_confirm [presupuesto_id]);;
           flash "Presupuesto transformado en pedido con éxito!" "success")
          (λ _,
             logger ERROR "Erro ao confirmar pedido";;
             flash "Error al transformar el presupuesto en pedido" "error");;
        mret (redirect_payment presupuesto_id)
    end.

End handlers.

(** ** The rules of the specification, in its words *)

(** A tax ID the write rule keeps: not empty, at least four characters
    long, the first two of them alphabetic. *)
Definition tax_id_shape {U : Unicode} (s : pystr) : Prop :=
  s ≠ [] ∧ (4 ≤ length s)%nat ∧ ∀ c, c ∈ take 2 s → isalpha_char c = true.

(** ** Running a handler and reading its trace *)

(** A request starts with the browser's session and an empty trace. *)
Definition run {A} (m : M A) (w : world) (session : gmap string Z) : state * outcome A :=
  m w {| st_session := session; st_trace := [] |}.

Definition trace_of {A} (r : state * outcome A) : list event := st_trace r.1.
Definition session_of {A} (r : state * outcome A) : gmap string Z := st_session r.1.

(** The values dictionaries sent to [res.partner], by [write] or [create]. *)
Definition written_partner (e : event) : option partner_vals :=
  match e with
  | ev_call c =>
      match c with
      | write_partner _ vals | create_partner vals => Some vals
      | _ => None
      end
  | _ => None
  end.

(** The record identifiers a [res.partner] [write] is applied to. *)
Definition write_targets (e : event) : option (list Z) :=
  match e with
  | ev_call c => match c with write_partner ids _ => Some ids | _ => None end
  | _ => None
  end.

Definition partner_search (e : event) : option (pystr * pystr) :=
  match e with
  | ev_call c => match c with search_partner vat email => Some (vat, email) | _ => None end
  | _ => None
  end.

Definition created_order (e : event) : option order_vals :=
  match e with
  | ev_call c => match c with create_order vals => Some vals | _ => None end
  | _ => None
  end.

Definition created_line (e : event) : option line_vals :=
  match e with
  | ev_call c => match c with create_line vals => Some vals | _ => None end
  | _ => None
  end.

Definition confirmed_order (e : event) : option (list Z) :=
  match e with
  | ev_call c => match c with action_confirm ids => Some ids | _ => None end
  | _ => None
  end.

Definition patched_contact (e : event) : option (Z * update_data) :=
  match e with
  | ev_call c =>
      match c with requests_patch_contact id data => Some (id, data) | _ => None end
  | _ => None
  end.

Definition posted_contact (e : event) : option create_data :=
  match e with
  | ev_call c => match c with requests_post_contact data => Some data | _ => None end
  | _ => None
  end.

Definition vat_lookup (e : event) : option (pystr * pystr) :=
  match e with
  | ev_call c => match c with checkVat cc n => Some (cc, n) | _ => None end
  | _ => None
  end.

(** The flash messages of a category, as the user sees them. *)
Definition flashed (category : string) (e : event) : option string :=
  match e with
  | ev_flash msg cat => if bool_decide (cat = category) then Some msg else None
  | _ => None
  end.

Definition logged (l : level) (e : event) : option string :=
  match e with
  | ev_log l' msg =>
      match l, l' with
      | INFO, INFO | WARNING, WARNING | ERROR, ERROR => Some msg
      | _, _ => None
      end
  | _ => None
  end.

(** ** A reference world

    Every service answers, no partner and no contact exists yet, and
    there is no price file.  Concrete runs override single answers. *)
Definition sample_order : order_rec := {|
  o_amount_total := Some {| num_mantissa := 12050; num_exp10 := -2 |};
  o_partner_id := Some 77
|}.

Definition sample_partner : partner_rec := {|
  p_name := py "Ana Lopez";
  p_email := py "ana@clinica.es";
  p_phone := py "600100200";
  p_company_name := None;
  p_category_id := [319; 4]
|}.

Definition calm : world := λ R _ c,
  match c in call R return outcome R with
  | common_authenticate => Returns (Some 2)
  | search_state _ => Returns [10]
  | search_country _ => Returns [20]
  | search_partner _ _ => Returns []
  | write_partner _ _ => Returns true
  | create_partner _ => Returns (Some 77)
  | create_order _ => Returns (Some 500)
  | search_product _ => Returns [9]
  | create_line _ => Returns (Some 1)
  | read_order _ => Returns [sample_order]
  | search_read_lines _ => Returns []
  | read_partner _ => Returns [sample_partner]
  | write_warehouse _ _ => Returns true
  | action_confirm _ => Returns ()
  | requests_get_contacts _ => Returns {| sr_status_code := 200; sr_results := [] |}
  | requests_patch_contact _ _ => Returns 200
  | requests_patch_valor_pedido _ _ => Returns 200
  | requests_post_contact _ => Returns {| cr_status_code := 201; cr_id := Some 5 |}
  | zeep_Client => Returns ()
  | checkVat _ _ => Returns true
  | load_price_list => Raises FileNotFoundError
  end.

(** The contact search finds the contact of the sample partner, with
    the given tags. *)
Definition ana_contact (tags : list pystr) : contact := {|
  c_id := 9;
  c_email := Some (py "ana@clinica.es");
  c_tags := Some tags
|}.

Definition crm_knows (tags : list pystr) : world := λ R tr c,
  match c in call R return outcome R with
  | requests_get_contacts _ =>
      Returns {| sr_status_code := 200; sr_results := [ana_contact tags] |}
  | c' => calm _ tr c'
  end.

(** The contact search is answered with a server error. *)
Definition crm_search_fails : world := λ R tr c,
  match c in call R return outcome R with
  | requests_get_contacts _ => Returns {| sr_status_code := 503; sr_results := [] |}
  | c' => calm _ tr c'
  end.

(** The contact search cannot be reached at all. *)
Definition crm_unreachable : world := λ R tr c,
  match c in call R return outcome R with
  | requests_get_contacts _ => Raises ConnectionError
  | c' => calm _ tr c'
  end.

(** The VIES service description cannot be fetched. *)
Definition vies_unreachable : world := λ R tr c,
  match c in call R return outcome R with
  | zeep_Client => Raises ConnectionError
  | c' => calm _ tr c'
  end.

(** The service description is fetched, and the VAT query itself fails. *)
Definition vies_query_fails : world := λ R tr c,
  match c in call R return outcome R with
  | checkVat _ _ => Raises ConnectionError
  | c' => calm _ tr c'
  end.

(** The partner search finds two records. *)
Definition two_matches : world := λ R tr c,
  match c in call R return outcome R with
  | search_partner _ _ => Returns [41; 42]
  | c' => calm _ tr c'
  end.

(** The price file holds the given table. *)
Definition price_file (table : list (pystr * json)) : world := λ R tr c,
  match c in call R return outcome R with
  | load_price_list => Returns table
  | c' => calm _ tr c'
  end.

Definition nine_99 : number := {| num_mantissa := 999; num_exp10 := -2 |}.

(** Sample requests *)
Definition ana_form (vat customer_tag : string) : gmap string pystr :=
  {[ "name" := py "Ana Lopez"; "vat" := py vat; "customer_tag" := py customer_tag ]}.

Definition ana_vals (vat : option pystr) (tag_id pricelist_id : Z) : partner_vals := {|
  pv_name := py "Ana Lopez"; pv_vat := vat; pv_email := [];
  pv_street := []; pv_city := [];
  pv_state_id := Some 10; pv_country_id := Some 20;
  pv_phone := []; pv_mobile := []; pv_zip := [];
  pv_category_id := [tag_id; 319; 403];
  pv_property_product_pricelist := pricelist_id
|}.

Definition ana_info (customer_tag : option pystr) : client_info := {|
  ci_name := py "Ana Lopez";
  ci_email := py "Ana@Clinica.es";
  ci_phone := py "600100200";
  ci_company := py "Ana Lopez";
  ci_customer_tag := customer_tag
|}.

Definition line_form (product_code product_qty : string) : gmap string pystr :=
  {[ "product_code" := py product_code; "product_qty" := py product_qty ]}.

(** ** Derived notions the properties are stated with *)
Section derived.
Context {U : Unicode} {cfg : Config}.

(** A string is trimmed when neither end is whitespace. *)
Definition trimmed (s : pystr) : Prop :=
  (∀ c, head s = Some c → isspace c = false) ∧
  (∀ c, last s = Some c → isspace c = false).

(** The answers the ERP gives [save] when it is reachable. *)
Definition erp_answers (w : world) : Prop :=
  (∀ tr, ∃ uid, w _ tr common_authenticate = Returns (Some uid) ∧ uid ≠ 0)
  ∧ (∀ tr n, ∃ ids, w _ tr (search_state n) = Returns ids)
  ∧ (∀ tr n, ∃ ids, w _ tr (search_country n) = Returns ids)
  ∧ (∀ tr v e, ∃ ids, w _ tr (search_partner v e) = Returns ids).

(** A form [save] accepts: a name, and an email that is empty or valid. *)
Definition form_accepted (form : gmap string pystr) : Prop :=
  nonempty (strip (form_get form "name")) = true
  ∧ (nonempty (strip (form_get form "email")) = true →
     validate_email (strip (form_get form "email")) = true).

(** The tag list a matched contact is patched with. *)
Definition merged_tags (existing_tags : list pystr) (tipo : option pystr) : list pystr :=
  let with_marker :=
    if in_list (py "Expodental 2026") existing_tags
    then existing_tags else existing_tags ++ [py "Expodental 2026"] in
  match tipo with
  | Some t =>
      if tipo_recognized tipo && negb (in_list t existing_tags)
      then with_marker ++ [t] else with_marker
  | None => with_marker
  end.

(** The recognized tag the reconciliation of a matched contact resolves
    to: the supplied classification when it is recognized and not among
    the existing tags, else the first recognized existing tag. *)
Definition resolved_tag (existing_tags : list pystr) (tipo : option pystr) : option pystr :=
  match tipo with
  | Some t =>
      if tipo_recognized tipo && negb (in_list t existing_tags)
      then tipo
      else List.find (λ tag, in_list tag recognized) existing_tags
  | None => List.find (λ tag, in_list tag recognized) existing_tags
  end.

(** The dictionary [custom_prices_lower] built from the price file,
    starting from [d]. *)
Definition lowered (d : gmap pystr json) (table : list (pystr * json)) : gmap pystr json :=
  foldl (λ (d : gmap pystr json) kv, <[lower kv.1 := kv.2]> d) d table.

End derived.

(** ** Proof automation *)

(** Closed decidable facts are settled by evaluation. *)
Ltac compute_decide := apply (bool_decide_unpack _); vm_compute; exact I.

(** Unfold the monad, and nothing of the data a handler computes. *)
Ltac unfold_monad :=
  cbv beta iota zeta delta
    [run trace_of session_of mbind mret M_bind M_ret raise try_except Exception
     emit perform logger flash session_set session_get
     st_trace st_session fst snd];
  cbn [app andb orb negb].

(** Case analysis on the next answer of the world. *)
Ltac ask_world :=
  match goal with
  | |- context [?w ?R ?tr ?c] =>
      match type of w with
      | world => destruct (w R tr c) eqn:?; unfold_monad
      end
  end.

(** Case analysis on a test of the handler that is not itself waiting
    for an answer. *)
Ltac branch :=
  match goal with
  | |- context [match ?x with _ => _ end] =>
      lazymatch x with
      | context [match _ with _ => _ end] => fail
      | _ => destruct x eqn:?
      end
  end; unfold_monad.

Ltac run_cases := unfold_monad; repeat first [ask_world | branch].

(** * Properties *)

(** ** Sample evaluations *)

Example validate_email_accepts : validate_email (py "ana.lopez@clinica-sur.es") = true.
Proof. reflexivity. Qed.

Example validate_email_wants_at : validate_email (py "ana.lopez.clinica.es") = false.
Proof. reflexivity. Qed.

Example validate_email_wants_tld : validate_email (py "ana@clinica.e") = false.
Proof. reflexivity. Qed.

Example int_of_str_grouped : int_of_str (U:=ascii_only) (py " +1_000 ") = Some 1000.
Proof. reflexivity. Qed.

Example int_of_str_letters : int_of_str (U:=ascii_only) (py "abc") = None.
Proof. reflexivity. Qed.

Example int_of_str_empty : int_of_str (U:=ascii_only) [] = None.
Proof. reflexivity. Qed.

Example int_of_str_separator : int_of_str (U:=ascii_only) [28; 53]%N = None.
Proof. reflexivity. Qed.

Example strip_separator : strip (U:=ascii_only) [28; 53; 31]%N = [53]%N.
Proof. reflexivity. Qed.

Example validate_email_final_newline : validate_email (py "a@b.co" ++ [10]%N) = true.
Proof. reflexivity. Qed.

Example validate_email_double_dot : validate_email (py "a@b..co") = true.
Proof. reflexivity. Qed.

Example sanitize_string_markup :
  sanitize_string (U:=ascii_only) (Some (py "  <b>Tom & 'Ana'</b> "))
  = py "&lt;b&gt;Tom &amp; &#39;Ana&#39;&lt;/b&gt;".
Proof. reflexivity. Qed.

Lemma truthy_nonzero z : z ≠ 0 → truthy (Some z) = true.
Proof. intros Hz%Z.eqb_neq. unfold truthy. by rewrite Hz. Qed.

Lemma omap_cons {A B} (f : A → option B) x l :
  omap f (x :: l) = match f x with Some y => y :: omap f l | None => omap f l end.
Proof. reflexivity. Qed.

(** ** Trimming and escaping *)
Section string_facts.
Context {U : Unicode}.


Lemma lstrip_head s c : head (lstrip s) = Some c → isspace c = false.
Proof.
  induction s as [|a s IH]; simpl; [done|].
  destruct (isspace a) eqn:Ha; [done|].
  simpl. by intros [= <-].
Qed.

Lemma lstrip_fixed s :
  (∀ c, head s = Some c → isspace c = false) → lstrip s = s.
Proof.
  destruct s as [|a s]; simpl; [done|].
  intros H. by rewrite (H a eq_refl).
Qed.

Lemma lstrip_last s c :
  last s = Some c → isspace c = false → last (lstrip s) = Some c.
Proof.
  induction s as [|a s IH]; simpl; [done|].
  intros Hl Hc. destruct (isspace a) eqn:Ha; [|done].
  destruct s as [|b s]; simpl in *.
  - congruence.
  - by apply IH.
Qed.

Lemma strip_trimmed s : trimmed (strip s).
Proof.
  unfold trimmed, strip, rstrip. split; intros c.
  - rewrite head_reverse. intros Hl.
    destruct (head (lstrip s)) as [d|] eqn:Hd.
    + pose proof (lstrip_head _ _ Hd) as Hsp.
      assert (last (reverse (lstrip s)) = Some d) as Hld
        by (by rewrite last_reverse).
      rewrite (lstrip_last _ _ Hld Hsp) in Hl. by simplify_eq.
    + apply head_None in Hd. rewrite Hd in Hl. done.
  - rewrite last_reverse. apply lstrip_head.
Qed.

Lemma strip_fixed s : trimmed s → strip s = s.
Proof.
  intros [Hh Hl]. unfold strip, rstrip.
  rewrite (lstrip_fixed s Hh).
  rewrite lstrip_fixed; [apply reverse_involutive|].
  intros c. rewrite head_reverse. apply Hl.
Qed.

Lemma escape_char_head c : head (escape_char c) = Some 38%N ∨ escape_char c = [c].
Proof. unfold escape_char. repeat case_match; auto. Qed.

Lemma escape_char_last c : last (escape_char c) = Some 59%N ∨ escape_char c = [c].
Proof. unfold escape_char. repeat case_match; auto. Qed.

Lemma escape_trimmed s : trimmed s → trimmed (escape s).
Proof.
  intros [Hh Hl]. unfold escape. split; intros c.
  - destruct s as [|a s]; [done|].
    rewrite bind_cons. destruct (escape_char_head a) as [H|H].
    + rewrite head_app, H.
      destruct (escape_char a); [done|]. simpl in *. by intros [= <-].
    + rewrite H. simpl. intros [= <-]. by apply Hh.
  - destruct (last s) as [a|] eqn:Ha.
    + apply last_Some in Ha as [s' ->].
      rewrite bind_app, bind_singleton.
      destruct (escape_char_last a) as [H|H].
      * rewrite last_app, H. by intros [= <-].
      * rewrite H, last_snoc. intros [= <-]. by apply Hl.
    + apply last_None in Ha as ->. done.
Qed.

Lemma escape_char_no_markup c d :
  d ∈ escape_char c → d ∉ [60; 62; 39; 34]%N.
Proof.
  revert d. apply (Forall_forall (λ d, d ∉ [60; 62; 39; 34]%N)).
  unfold escape_char.
  repeat (case_match; [compute_decide|]).
  repeat match goal with H : (_ =? _)%N = false |- _ => apply N.eqb_neq in H end.
  apply Forall_singleton; cbn beta. rewrite !not_elem_of_cons. repeat split; try done. apply not_elem_of_nil.
Qed.

Lemma escape_no_markup s d : d ∈ escape s → d ∉ [60; 62; 39; 34]%N.
Proof.
  unfold escape. intros (c & Hd & _)%list_elem_of_bind.
  by eapply escape_char_no_markup.
Qed.

(** The only ampersand of an escaped character opens its entity. *)
Lemma escape_char_amp c i :
  escape_char c !! i = Some 38%N →
  i = 0%nat ∧ escape_char c ∈ html_entities.
Proof.
  unfold escape_char, html_entities.
  repeat (case_match;
    [destruct i as [|[|[|[|[|[|?]]]]]]; simpl; intros ?; simplify_eq;
     split; [done|compute_decide]|]).
  destruct i; simpl; [|done]. intros [= ->]. done.
Qed.

Lemma escape_amp s i :
  escape s !! i = Some 38%N →
  ∃ e, e ∈ html_entities ∧ e `prefix_of` drop i (escape s).
Proof.
  unfold escape. revert i. induction s as [|c s IH]; intros i; [done|].
  rewrite bind_cons. intros [H|[Hge H]]%lookup_app_Some.
  - apply escape_char_amp in H as [-> He].
    eexists. split; [exact He|]. simpl. by apply prefix_app_r.
  - destruct (IH _ H) as (e & He & Hp).
    exists e. split; [done|]. by rewrite drop_app_ge.
Qed.

Lemma sanitize_string_unfold v :
  sanitize_string (Some v) = escape (strip v).
Proof. by destruct v. Qed.

(** C8: [sanitize_string] returns a string that trimming leaves
    unchanged; neither angle bracket, apostrophe nor double quote
    occurs in it and every ampersand in it opens one of the five
    entities, so no HTML special character of the input is left
    unescaped; an absent or empty value gives the empty string. *)
Theorem sanitize_string_safe (value : option pystr) :
  let out := sanitize_string value in
  strip out = out
  ∧ (∀ c, c ∈ out → c ∉ [60; 62; 39; 34]%N)
  ∧ (∀ i, out !! i = Some 38%N →
       ∃ e, e ∈ html_entities ∧ e `prefix_of` drop i out)
  ∧ (value = None ∨ value = Some [] → out = []).
Proof.
  cbv zeta. destruct value as [v|].
  - rewrite sanitize_string_unfold. repeat split.
    + apply strip_fixed, escape_trimmed, strip_trimmed.
    + apply escape_no_markup.
    + apply escape_amp.
    + intros [?|[= ->]]; [done|]. reflexivity.
  - repeat split; try done. intros c Hc. by apply elem_of_nil in Hc.
Qed.
End string_facts.

(** ** Saving a customer *)
Section save_facts.
Context {U : Unicode} {cfg : Config}.

Lemma save_written form w session vals :
  vals ∈ omap written_partner (trace_of (run (save form) w session)) →
  let vat := strip (form_get form "vat") in
  let tag_id := default TAG_OTROS_ID (tag_mapping !! strip (form_get form "customer_tag")) in
  pv_vat vals = (if nonempty vat && (4 <=? length vat)%nat && isalpha (take 2 vat)
                 then Some vat else None)
  ∧ pv_category_id vals = tag_id :: MANDATORY_TAG_IDS
  ∧ pv_property_product_pricelist vals =
      (if bool_decide (tag_id = TAG_MAYORISTA_ID)
       then PRICELIST_MAYORISTA_ID else PRICELIST_DEFAULT_ID).
Proof.
  intros Hin. cbv zeta. 
  match goal with |- ?P => set (G := P) end.
  revert Hin. unfold save. unfold_monad.
  run_cases.
  all: cbv [omap list_omap written_partner].
  all: try (intros []%elem_of_nil).
  all: intros ->%list_elem_of_singleton; subst G; cbn.
  all: repeat match goal with H : _ = _ |- _ => rewrite H end; done.
Qed.

Lemma tax_id_shape_test (s : pystr) :
  nonempty s && (4 <=? length s)%nat && isalpha (take 2 s) = true ↔ tax_id_shape s.
Proof.
  unfold tax_id_shape. rewrite !andb_true_iff, Nat.leb_le.
  destruct s as [|a [|b s]]; simpl.
  - split; [intros [[? _] _]|intros [? _]]; done.
  - split; [intros [[_ ?] _]|intros (_ & ? & _)]; lia.
  - rewrite !andb_true_iff. split.
    + intros [[_ ?] (Ha & Hb & _)]. repeat split; [done|done|].
      intros c [->|[->|Hc%elem_of_nil]%elem_of_cons]%elem_of_cons; done.
    + intros (_ & ? & Hc). repeat split; [done|apply Hc; set_solver..].
Qed.



Lemma save_persists form w session :
  form_accepted form → erp_answers w →
  ∃ vals, omap written_partner (trace_of (run (save form) w session)) = [vals].
Proof.
  intros [Hname Hemail] (Hauth & Hstate & Hcountry & Hpartner).
  unfold save. rewrite Hname. 
  destruct (nonempty (strip (form_get form "email"))) eqn:He;
    [rewrite (Hemail eq_refl)|]; cbn [negb andb].
  all: unfold_monad.
  all: destruct (Hauth []) as (uid & -> & Huid); unfold_monad.
  all: unfold truthy; apply Z.eqb_neq in Huid; rewrite Huid; cbn [negb]; unfold_monad.
  all: edestruct Hstate as [? ->]; unfold_monad.
  all: edestruct Hcountry as [? ->]; unfold_monad.
  all: edestruct Hpartner as [ids ->]; unfold_monad.
  all: destruct ids; unfold_monad; repeat first [ask_world | branch].
  all: cbv [omap list_omap written_partner]; eauto.
Qed.

(** C2, amended: the tax ID [save] persists is decided on the
    submitted string with its surrounding whitespace trimmed: every
    values dictionary sent to the ERP holds the trimmed string when
    it is not empty, has at least four characters and starts with two
    alphabetic ones, and nothing otherwise; "PT123456" is persisted
    as it is and "12345" as absent. *)
Theorem save_tax_id_rule form w session vals :
  vals ∈ omap written_partner (trace_of (run (save form) w session)) →
  let vat := strip (form_get form "vat") in
  (tax_id_shape vat → pv_vat vals = Some vat)
  ∧ (¬ tax_id_shape vat → pv_vat vals = None)
  ∧ (form_get form "vat" = py "PT123456" → pv_vat vals = Some (py "PT123456"))
  ∧ (form_get form "vat" = py "12345" → pv_vat vals = None).
Proof.
  intros (Hvat & _)%save_written vat. rewrite Hvat. fold vat.
  pose proof (tax_id_shape_test vat) as Hshape.
  split_and!.
  - intros Hs%Hshape. by rewrite Hs.
  - intros Hs. destruct (_ && _); [|done]. destruct Hs. by apply Hshape.
  - intros Hraw. subst vat. rewrite Hraw. reflexivity.
  - intros Hraw. subst vat. rewrite Hraw. reflexivity.
Qed.

(** C4, amended: the price list [save] writes is decided on the
    submitted classification with its surrounding whitespace trimmed:
    when the trimmed value is "mayorista" it is the mayorista price
    list, and for every other value, unknown and empty ones included,
    the default price list (the mayorista tag identifier being
    different from the other four, as configured). *)
Theorem save_pricelist_rule form w session vals :
  TAG_MAYORISTA_ID ∉ [TAG_CLINICA_DENTAL_ID; TAG_LABORATORIO_ID;
                      TAG_ESTUDIANTE_ID; TAG_OTROS_ID] →
  vals ∈ omap written_partner (trace_of (run (save form) w session)) →
  pv_property_product_pricelist vals =
    if bool_decide (strip (form_get form "customer_tag") = py "mayorista")
    then PRICELIST_MAYORISTA_ID else PRICELIST_DEFAULT_ID.
Proof.
  intros Hids (_ & _ & ->)%save_written.
  rewrite !not_elem_of_cons in Hids. destruct Hids as (? & ? & ? & ? & _).
  generalize (strip (form_get form "customer_tag")). intros tag.
  unfold tag_mapping. rewrite !list_to_map_cons, list_to_map_nil.
  cbn [fst snd]. rewrite !lookup_insert, lookup_empty.
  repeat case_decide; simplify_eq; cbn [default]; try done.
  all: rewrite bool_decide_eq_false_2 by congruence; done.
Qed.

(** C9: when the partner search of [save] returns more than one
    identifier, the one [write] call is applied to all of them, no
    partner is created, and once the write returns the session holds
    the first identifier only. *)
Theorem save_writes_every_match form w session ids :
  omap partner_search (trace_of (run (save form) w session)) ≠ [] →
  (∀ tr v e, w _ tr (search_partner v e) = Returns ids) →
  (1 < length ids)%nat →
  let r := run (save form) w session in
  omap write_targets (trace_of r) = [ids]
  ∧ (∃ vals, omap written_partner (trace_of r) = [vals])
  ∧ ((∃ resp, r.2 = Returns resp) → session_of r !! "partner_id" = head ids).
Proof.
  intros Hsearch Hids Hlen r. subst r. revert Hsearch.
  unfold save. unfold_monad.
  repeat first
    [ rewrite Hids; unfold_monad
    | ask_world
    | match goal with
      | |- context [match ids with _ => _ end] =>
          destruct ids as [|first [|second rest]]; [simpl in Hlen; lia..|]; unfold_monad
      end
    | branch ].
  all: cbv [omap list_omap partner_search write_targets written_partner]; try done.
  all: intros _; split_and!; eauto.
  all: intros [resp Hr]; try discriminate Hr.
  all: cbn; apply lookup_insert_eq.
Qed.
End save_facts.

(** *** Concrete runs of [save] *)

Lemma save_tax_id_rule_witness :
  let form := ana_form "PT123456" "laboratorio" in
  let vals := ana_vals (Some (py "PT123456")) 4 33 in
  vals ∈ omap written_partner
           (trace_of (run (save (U:=ascii_only) (cfg:=default_config) form) calm ∅))
  ∧ pv_vat vals = Some (py "PT123456").
Proof.
  intros form vals.
  assert (vals ∈ omap written_partner
            (trace_of (run (save (U:=ascii_only) (cfg:=default_config) form) calm ∅)))
    as Hin by (vm_compute; left).
  split; [exact Hin|].
  apply (save_tax_id_rule (U:=ascii_only) (cfg:=default_config) form calm ∅ vals Hin).
  reflexivity.
Defined.

(** The claim of C2 as it is worded fails on a submitted string that
    ends with a space: it has the required shape, and what is persisted
    is not that string but its trimmed form. *)
Lemma save_tax_id_not_verbatim :
  let form := ana_form "PT123456 " "laboratorio" in
  tax_id_shape (U:=ascii_only) (form_get form "vat")
  ∧ pv_vat <$> omap written_partner
        (trace_of (run (save (U:=ascii_only) (cfg:=default_config) form) calm ∅))
    = [Some (py "PT123456")]
  ∧ Some (py "PT123456") ≠ Some (form_get form "vat").
Proof.
  split_and!.
  - apply (tax_id_shape_test (U:=ascii_only)). reflexivity.
  - reflexivity.
  - discriminate.
Qed.

Lemma save_pricelist_rule_witness :
  let form := ana_form "PT123456" "mayorista" in
  let vals := ana_vals (Some (py "PT123456")) 2 32 in
  ((2 : Z) ∉ [3; 4; 5; 15])
  ∧ vals ∈ omap written_partner
           (trace_of (run (save (U:=ascii_only) (cfg:=default_config) form) calm ∅))
  ∧ pv_property_product_pricelist vals = 32.
Proof.
  intros form vals.
  assert ((2 : Z) ∉ [3; 4; 5; 15])
    as Hids by compute_decide.
  assert (vals ∈ omap written_partner
            (trace_of (run (save (U:=ascii_only) (cfg:=default_config) form) calm ∅)))
    as Hin by (vm_compute; left).
  split_and!; [exact Hids|exact Hin|].
  exact (save_pricelist_rule (U:=ascii_only) (cfg:=default_config) form calm ∅ vals Hids Hin).
Defined.

(** The claim of C4 as it is worded fails on a submitted classification
    that ends with a space: it is not the value "mayorista", and the
    record is written with the mayorista price list. *)
Lemma save_pricelist_not_verbatim :
  let form := ana_form "PT123456" "mayorista " in
  form_get form "customer_tag" ≠ py "mayorista"
  ∧ pv_property_product_pricelist <$> omap written_partner
        (trace_of (run (save (U:=ascii_only) (cfg:=default_config) form) calm ∅))
    = [PRICELIST_MAYORISTA_ID (Config:=default_config)]
  ∧ PRICELIST_MAYORISTA_ID (Config:=default_config)
    ≠ PRICELIST_DEFAULT_ID (Config:=default_config).
Proof.
  split_and!.
  - discriminate.
  - reflexivity.
  - discriminate.
Qed.

Lemma save_writes_every_match_witness :
  let r := run (save (U:=ascii_only) (cfg:=default_config)
                  (ana_form "PT123456" "laboratorio")) two_matches ∅ in
  omap write_targets (trace_of r) = [[41; 42]]
  ∧ (∃ vals, omap written_partner (trace_of r) = [vals])
  ∧ ((∃ resp, r.2 = Returns resp) → session_of r !! "partner_id" = Some 41).
Proof.
  apply (save_writes_every_match (U:=ascii_only) (cfg:=default_config)
           (ana_form "PT123456" "laboratorio") two_matches ∅ [41; 42]).
  - vm_compute. discriminate.
  - reflexivity.
  - simpl. lia.
Defined.

(** ** CRM reconciliation *)
Section clientify_facts.
Context {U : Unicode} {cfg : Config}.

Lemma find_none_iff {A} (f : A → bool) (l : list A) :
  List.find f l = None ↔ ∀ x, x ∈ l → f x = false.
Proof.
  induction l as [|a l IH]; simpl.
  - split; [intros _ x Hx; by apply elem_of_nil in Hx|done].
  - destruct (f a) eqn:Ha.
    + split; [done|]. intros H. rewrite H in Ha; [done|left].
    + rewrite IH. split.
      * intros H x [->|Hx]%elem_of_cons; auto.
      * intros H x Hx. apply H. by right.
Qed.

Lemma find_some_elem {A} (f : A → bool) (l : list A) x :
  List.find f l = Some x → x ∈ l ∧ f x = true.
Proof.
  induction l as [|a l IH]; simpl; [done|].
  destruct (f a) eqn:Ha.
  - intros [= ->]. split; [left|done].
  - intros [? ?]%IH. split; [by right|done].
Qed.

Lemma in_list_spec x l : in_list x l = true ↔ x ∈ l.
Proof. unfold in_list. apply bool_decide_eq_true. Qed.

Lemma marker_not_recognized : in_list (py "Expodental 2026") recognized = false.
Proof. reflexivity. Qed.



Lemma in_list_with_marker t existing_tags :
  in_list t recognized = true →
  in_list t (if in_list (py "Expodental 2026") existing_tags
             then existing_tags else existing_tags ++ [py "Expodental 2026"])
  = in_list t existing_tags.
Proof.
  intros Ht. destruct (in_list (py "Expodental 2026") existing_tags); [done|].
  unfold in_list. apply bool_decide_ext.
  rewrite elem_of_app, list_elem_of_singleton.
  split; [intros [?| ->]|auto]; [done|].
  rewrite marker_not_recognized in Ht. done.
Qed.

Lemma clientify_update client_data (w : world) session response exact_match :
  CLIENTIFY_ENABLED = true →
  (∀ tr, w _ tr (requests_get_contacts (ci_email client_data)) = Returns response) →
  sr_status_code response = 200 →
  List.find (λ c, bool_decide (lower (default [] (c_email c))
                               = lower (ci_email client_data)))
            (sr_results response) = Some exact_match →
  let existing_tags := default [] (c_tags exact_match) in
  let tipo := ci_customer_tag client_data in
  let r := run (create_or_update_client_in_clientify client_data) w session in
  ∃ contact_type,
    omap patched_contact (trace_of r)
      = [(c_id exact_match,
          {| ud_tags := merged_tags existing_tags tipo;
             ud_contact_source := py "Expodental 2026";
             ud_contact_type := contact_type |})]
    ∧ omap posted_contact (trace_of r) = []
    ∧ ((∀ tr id data, ∃ status, w _ tr (requests_patch_contact id data) = Returns status) →
       r.2 = Returns (resolved_tag existing_tags tipo, Some (c_id exact_match))).
Proof.
  intros Hen Hget Hst Hfind existing_tags tipo r. subst r.
  unfold create_or_update_client_in_clientify. rewrite Hen. cbn [negb].
  unfold_monad. rewrite Hget. unfold_monad. rewrite Hst, Hfind.
  destruct (sr_results response) as [|c0 cs] eqn:Hres; [done|].
  cbn [nonempty andb Z.eqb Pos.eqb]. fold existing_tags. fold tipo.
  assert (match tipo with
          | Some t => nonempty t && negb (in_list t
               (if in_list (py "Expodental 2026") existing_tags
                then existing_tags else existing_tags ++ [py "Expodental 2026"]))
                      && in_list t recognized
          | None => false
          end = match tipo with
                | Some t => tipo_recognized tipo && negb (in_list t existing_tags)
                | None => false end) as Happ.
  { destruct tipo as [t|]; [|done]. unfold tipo_recognized.
    destruct (in_list t recognized) eqn:Ht.
    - rewrite in_list_with_marker by done. by destruct (nonempty t), (in_list t existing_tags).
    - by rewrite !andb_false_r. }
  rewrite Happ. clear Happ.
  assert (match tipo with
          | Some t =>
              if match tipo with
                 | Some t0 => tipo_recognized tipo && negb (in_list t0 existing_tags)
                 | None => false
                 end
              then (if in_list (py "Expodental 2026") existing_tags
                    then existing_tags
                    else existing_tags ++ [py "Expodental 2026"]) ++ [t]
              else if in_list (py "Expodental 2026") existing_tags
                   then existing_tags
                   else existing_tags ++ [py "Expodental 2026"]
          | None => if in_list (py "Expodental 2026") existing_tags
                    then existing_tags
                    else existing_tags ++ [py "Expodental 2026"]
          end = merged_tags existing_tags tipo) as -> by (by destruct tipo).
  assert ((if match tipo with
              | Some t => tipo_recognized tipo && negb (in_list t existing_tags)
              | None => false
              end
           then tipo
           else List.find (λ tag, in_list tag recognized) existing_tags)
          = resolved_tag existing_tags tipo) as -> by (by destruct tipo).
  eexists. split_and!.
  - run_cases; reflexivity.
  - run_cases; reflexivity.
  - intros Hpatch. edestruct Hpatch as [status ->]. run_cases; reflexivity.
Qed.

Lemma marker_in_merged existing_tags tipo :
  py "Expodental 2026" ∈ merged_tags existing_tags tipo.
Proof.
  unfold merged_tags.
  destruct (in_list (py "Expodental 2026") existing_tags) eqn:Hm.
  - apply in_list_spec in Hm.
    destruct tipo; [case_match|]; rewrite ?elem_of_app; auto.
  - destruct tipo; [case_match|]; rewrite ?elem_of_app, ?list_elem_of_singleton; auto.
Qed.

Lemma tipo_in_merged existing_tags t :
  tipo_recognized (Some t) = true → t ∈ merged_tags existing_tags (Some t).
Proof.
  intros Ht. unfold merged_tags. rewrite Ht. cbn [andb].
  destruct (in_list t existing_tags) eqn:Hin; cbn [negb].
  - apply in_list_spec in Hin. case_match; rewrite ?elem_of_app; auto.
  - rewrite elem_of_app, list_elem_of_singleton. auto.
Qed.

(** C3, amended: for a matched contact whose tags contain
    "laboratorio" and not "mayorista", and a request classification
    "mayorista", the recognized tag returned is "mayorista" and the
    patched tag list contains "Expodental 2026" and "mayorista".  In
    general the tag returned is the supplied classification when it
    is recognized and not among the existing tags, and otherwise the
    first recognized value among the existing tags. *)
Theorem clientify_recognized_tag client_data (w : world) session response exact_match :
  CLIENTIFY_ENABLED = true →
  (∀ tr, w _ tr (requests_get_contacts (ci_email client_data)) = Returns response) →
  sr_status_code response = 200 →
  List.find (λ c, bool_decide (lower (default [] (c_email c))
                               = lower (ci_email client_data)))
            (sr_results response) = Some exact_match →
  (∀ tr id data, ∃ status, w _ tr (requests_patch_contact id data) = Returns status) →
  let existing_tags := default [] (c_tags exact_match) in
  let tipo := ci_customer_tag client_data in
  let r := run (create_or_update_client_in_clientify client_data) w session in
  let overrides :=
    tipo_recognized tipo = true ∧ ∀ t, tipo = Some t → t ∉ existing_tags in
  ∃ tag data,
    r.2 = Returns (tag, Some (c_id exact_match))
    ∧ omap patched_contact (trace_of r) = [(c_id exact_match, data)]
    ∧ py "Expodental 2026" ∈ ud_tags data
    ∧ (overrides → tag = tipo)
    ∧ (¬ overrides →
       tag = List.find (λ t, in_list t recognized) existing_tags)
    ∧ (py "laboratorio" ∈ existing_tags → py "mayorista" ∉ existing_tags →
       tipo = Some (py "mayorista") →
       tag = Some (py "mayorista") ∧ py "mayorista" ∈ ud_tags data).
Proof.
  intros Hen Hget Hst Hfind Hpatch existing_tags tipo r overrides.
  destruct (clientify_update client_data w session response exact_match
              Hen Hget Hst Hfind) as (ct & Hpatched & _ & Hret).
  fold existing_tags tipo r in Hpatched, Hret.
  exists (resolved_tag existing_tags tipo). eexists.
  split; [by apply Hret|]. split; [exact Hpatched|]. cbn [ud_tags].
  split; [apply marker_in_merged|].
  assert (overrides → resolved_tag existing_tags tipo = tipo) as Hover.
  { intros [Hrec Hnot]. unfold resolved_tag.
    destruct tipo as [t|] eqn:Ht; [|done]. rewrite Hrec. cbn [andb].
    destruct (in_list t existing_tags) eqn:Hin; [|done].
    apply in_list_spec in Hin. by destruct (Hnot t). }
  split_and!.
  - exact Hover.
  - intros Hno. unfold resolved_tag. destruct tipo as [t|] eqn:Ht; [|done].
    destruct (tipo_recognized (Some t)) eqn:Hrec; [|done].
    destruct (in_list t existing_tags) eqn:Hin; [done|]. destruct Hno.
    split; [done|]. intros t' [= <-]. rewrite <-in_list_spec, Hin. done.
  - intros _ Hnot Htipo. rewrite Hover.
    + split; [done|]. rewrite Htipo. by apply tipo_in_merged.
    + split; [by rewrite Htipo|]. intros t. rewrite Htipo. by intros [= <-].
Qed.

(** C10: when the e-mail search answers with a status other than 200,
    with no result, or with results none of which has the e-mail
    (compared in lower case), the contact is not patched and the next
    request is the POST that creates a contact from the client data:
    a failed search is handled as an unknown contact. *)
Theorem clientify_search_miss_creates client_data (w : world) session response :
  CLIENTIFY_ENABLED = true →
  w _ [] (requests_get_contacts (ci_email client_data)) = Returns response →
  (sr_status_code response ≠ 200
   ∨ sr_results response = []
   ∨ ∀ c, c ∈ sr_results response →
          lower (default [] (c_email c)) ≠ lower (ci_email client_data)) →
  let r := run (create_or_update_client_in_clientify client_data) w session in
  ∃ data rest,
    trace_of r = ev_call (requests_get_contacts (ci_email client_data))
                 :: ev_call (requests_post_contact data) :: rest
    ∧ omap patched_contact (trace_of r) = []
    ∧ omap posted_contact (trace_of r) = [data]
    ∧ cd_name data = ci_name client_data
    ∧ cd_email data = ci_email client_data
    ∧ cd_phone data = ci_phone client_data
    ∧ cd_contact_source data = py "Expodental 2026"
    ∧ [TAG_NAME; py "Expodental 2026"] `suffix_of` cd_tags data.
Proof.
  intros Hen Hget Hmiss r. subst r.
  unfold create_or_update_client_in_clientify. rewrite Hen. cbn [negb].
  unfold_monad. rewrite Hget. unfold_monad.
  assert (List.find
            (λ c, bool_decide (lower (default [] (c_email c))
                               = lower (ci_email client_data)))
            (sr_results response) = None
          ∨ (sr_status_code response =? 200) && nonempty (sr_results response) = false)
    as [Hfind|Hcond].
  { destruct Hmiss as [Hst|[Hres|Hnone]].
    - right. apply Z.eqb_neq in Hst. by rewrite Hst.
    - right. rewrite Hres. apply andb_false_r.
    - left. apply find_none_iff. intros c Hc.
      apply bool_decide_eq_false. by apply Hnone. }
  - rewrite Hfind.
    destruct ((sr_status_code response =? 200) && nonempty (sr_results response)).
    all: run_cases; do 2 eexists; split_and!; try reflexivity.
    all: cbn [cd_tags]; repeat case_match; try apply suffix_cons_r; reflexivity.
  - rewrite Hcond.
    run_cases; do 2 eexists; split_and!; try reflexivity.
    all: cbn [cd_tags]; repeat case_match; try apply suffix_cons_r; reflexivity.
Qed.
End clientify_facts.

(** *** Concrete runs of the reconciliation *)

Lemma clientify_recognized_tag_witness :
  let r := run (create_or_update_client_in_clientify (U:=ascii_only) (cfg:=default_config)
                  (ana_info (Some (py "mayorista"))))
               (crm_knows [py "laboratorio"]) ∅ in
  ∃ data,
    r.2 = Returns (Some (py "mayorista"), Some 9)
    ∧ omap patched_contact (trace_of r) = [(9, data)]
    ∧ py "Expodental 2026" ∈ ud_tags data
    ∧ py "mayorista" ∈ ud_tags data.
Proof.
  intros r.
  destruct (clientify_recognized_tag (U:=ascii_only) (cfg:=default_config)
              (ana_info (Some (py "mayorista"))) (crm_knows [py "laboratorio"]) ∅
              {| sr_status_code := 200; sr_results := [ana_contact [py "laboratorio"]] |}
              (ana_contact [py "laboratorio"]))
    as (tag & data & Hret & Hpatched & Hmarker & _ & _ & Hexample).
  - reflexivity.
  - reflexivity.
  - reflexivity.
  - reflexivity.
  - intros tr id data. eexists. reflexivity.
  - destruct Hexample as [-> Htipo].
    + left.
    + compute_decide.
    + reflexivity.
    + exists data. split_and!; assumption.
Defined.

(** The claim of C3 as it is worded fails on a contact whose tags
    contain "laboratorio" and already contain "mayorista": the tag
    returned for the classification "mayorista" is "laboratorio". *)
Lemma clientify_recognized_tag_kept :
  let tags := [py "laboratorio"; py "mayorista"] in
  let r := run (create_or_update_client_in_clientify (U:=ascii_only) (cfg:=default_config)
                  (ana_info (Some (py "mayorista"))))
               (crm_knows tags) ∅ in
  py "laboratorio" ∈ tags
  ∧ r.2 = Returns (Some (py "laboratorio"), Some 9)
  ∧ Some (py "laboratorio") ≠ Some (py "mayorista").
Proof.
  split_and!.
  - left.
  - reflexivity.
  - discriminate.
Qed.

Lemma clientify_search_miss_creates_witness :
  let r := run (create_or_update_client_in_clientify (U:=ascii_only) (cfg:=default_config)
                  (ana_info (Some (py "laboratorio"))))
               crm_search_fails ∅ in
  ∃ data,
    omap patched_contact (trace_of r) = []
    ∧ omap posted_contact (trace_of r) = [data]
    ∧ cd_email data = py "Ana@Clinica.es".
Proof.
  intros r.
  destruct (clientify_search_miss_creates (U:=ascii_only) (cfg:=default_config)
              (ana_info (Some (py "laboratorio"))) crm_search_fails ∅
              {| sr_status_code := 503; sr_results := [] |})
    as (data & rest & _ & Hpatched & Hposted & _ & Hemail & _).
  - reflexivity.
  - reflexivity.
  - left. discriminate.
  - exists data. split_and!; assumption.
Defined.

(** ** Quotation workflow *)
Section quotation_facts.
Context {U : Unicode} {cfg : Config}.

(** What holds of the fiscal position of every order that
    [create_presupuesto] creates. *)
Lemma create_presupuesto_fiscal_position vat (w : world) session vals :
  let r := run (create_presupuesto (Some vat)) w session in
  let country_code := upper (take 2 vat) in
  vals ∈ omap created_order (trace_of r) →
  (country_code = py "ES" →
     ov_fiscal_position_id vals = 1 ∧ omap vat_lookup (trace_of r) = [])
  ∧ (country_code ≠ py "ES" →
     omap vat_lookup (trace_of r) = [(country_code, drop 2 vat)]
     ∧ match w _ [ev_call zeep_Client] (checkVat country_code (drop 2 vat)) with
       | Returns true =>
           ov_fiscal_position_id vals = 4
           ∧ omap (flashed "warning") (trace_of r) = []
       | Returns false =>
           ov_fiscal_position_id vals = 1
           ∧ omap (flashed "warning") (trace_of r)
             = ["VAT inválido. Será tratado com IVA nacional."]
       | Raises _ =>
           ov_fiscal_position_id vals = 1
           ∧ omap (flashed "warning") (trace_of r)
             = ["Error al consultar VAT. Se tratará con IVA nacional."]
       end).
Proof.
  intros r country_code.
  remember (trace_of r) as tr eqn:Htr. revert Htr. subst r.
  match goal with |- _ → ?P => set (G := P) end.
  unfold create_presupuesto. fold country_code.
  destruct (bool_decide (country_code = py "ES")) eqn:Hes.
  - apply bool_decide_eq_true in Hes.
    run_cases; intros ->; subst G.
    all: cbv [omap list_omap created_order]; try (intros []%elem_of_nil).
    all: intros ->%list_elem_of_singleton.
    all: split; [intros _|done]; split; reflexivity.
  - apply bool_decide_eq_false in Hes.
    run_cases; intros ->; subst G.
    all: cbv [omap list_omap created_order]; try (intros []%elem_of_nil).
    all: intros ->%list_elem_of_singleton.
    all: split; [done|intros _]; split; [reflexivity|].
    all: repeat match goal with
                | H : _ = Returns _ |- _ => rewrite H
                | H : _ = Raises _ |- _ => rewrite H
                end.
    all: split; reflexivity.
Qed.

(** With the lookup client built, an order is created and the handler
    returns, whatever the VAT query answers or raises. *)
Lemma create_presupuesto_returns vat (w : world) session :
  (3 ≤ length vat)%nat →
  (∀ tr, w _ tr zeep_Client = Returns ()) →
  (∀ tr, ∃ uid, w _ tr common_authenticate = Returns (Some uid) ∧ uid ≠ 0) →
  (∀ tr vals, ∃ id, w _ tr (create_order vals) = Returns id) →
  let r := run (create_presupuesto (Some vat)) w session in
  ∃ resp vals, r.2 = Returns resp ∧ omap created_order (trace_of r) = [vals].
Proof.
  intros Hlen Hclient Hauth Hcreate r. subst r. unfold create_presupuesto.
  assert (negb (nonempty vat) || (length vat <? 3)%nat = false) as ->.
  { destruct vat; [simpl in Hlen; lia|]. apply Nat.ltb_ge. done. }
  repeat first
    [ rewrite Hclient; unfold_monad
    | match goal with
      | |- context [?f _ ?tr common_authenticate] =>
          let Huid := fresh "Huid" in
          destruct (Hauth tr) as (? & -> & Huid);
          rewrite (truthy_nonzero _ Huid); unfold_monad
      | |- context [?f _ ?tr (create_order ?v)] =>
          destruct (Hcreate tr v) as [? ->]; unfold_monad
      end
    | ask_world | branch ].
  all: do 2 eexists; split; reflexivity.
Qed.

(** When the VAT query itself raises, the handler applies the domestic
    fiscal position and warns the user. *)
Lemma create_presupuesto_query_fault_handled session :
  let r := run (create_presupuesto (Some (py "PT123456789"))) vies_query_fails session in
  r.2 = Returns (redirect_presupuesto_details 500)
  ∧ omap (flashed "warning") (trace_of r)
    = ["Error al consultar VAT. Se tratará con IVA nacional."]
  ∧ ov_fiscal_position_id <$> omap created_order (trace_of r) = [1].
Proof. split_and!; reflexivity. Qed.

(** C5, the failing run: for the VAT "PT123456789", when the VIES
    service description cannot be fetched, the exception of
    [Client(...)] leaves [create_presupuesto]: no warning is flashed
    and no order is created. *)
Theorem create_presupuesto_client_fault session :
  let r := run (create_presupuesto (Some (py "PT123456789"))) vies_unreachable session in
  r.2 = Raises ConnectionError
  ∧ omap (flashed "warning") (trace_of r) = []
  ∧ omap created_order (trace_of r) = [].
Proof. split_and!; reflexivity. Qed.


Lemma lowered_miss table d code :
  (∀ k v, (k, v) ∈ table → lower k ≠ code) →
  lowered d table !! code = d !! code.
Proof.
  revert d. induction table as [|[k v] table IH]; intros d Hmiss; [done|].
  unfold lowered in *. cbn [foldl]. rewrite IH.
  - apply lookup_insert_ne. cbn. eapply Hmiss. left.
  - intros k' v' Hin. eapply Hmiss. right. exact Hin.
Qed.

Lemma lowered_last pre k v post d code :
  lower k = code →
  (∀ k' v', (k', v') ∈ post → lower k' ≠ code) →
  lowered d (pre ++ (k, v) :: post) !! code = Some v.
Proof.
  intros Hk Hpost.
  assert (lowered d (pre ++ (k, v) :: post)
          = lowered (<[lower k := v]> (lowered d pre)) post) as ->
    by (unfold lowered; rewrite foldl_app; reflexivity).
  rewrite lowered_miss by done. rewrite Hk. apply lookup_insert_eq.
Qed.

(** C6: the line [presupuesto_details] creates carries the quantity
    of the form and the price the override table holds for the
    product code, both compared in lower case; with the table
    {"p100": 9.99}, the code "P100" and the quantity 3 the line has
    unit price 9.99 and quantity 3; a code that no key of the table
    matches gets no unit price. *)
Theorem presupuesto_details_price_override form (w : world) session
    presupuesto_id table pid pids n :
  (∀ tr, ∃ uid, w _ tr common_authenticate = Returns (Some uid) ∧ uid ≠ 0) →
  let product_code := lower (strip (form_get form "product_code")) in
  product_code ≠ [] →
  match form !! "product_qty" with
  | Some v => int_of_str v = Some n
  | None => n = 1
  end →
  (∀ tr, w _ tr load_price_list = Returns table) →
  (∀ tr c, w _ tr (search_product c) = Returns (pid :: pids)) →
  let r := run (presupuesto_details POST form presupuesto_id) w session in
  ∃ price,
    omap created_line (trace_of r)
      = [{| lv_order_id := presupuesto_id; lv_product_id := pid;
            lv_product_uom_qty := n; lv_price_unit := price |}]
    ∧ ((∀ k v, (k, v) ∈ table → lower k ≠ product_code) → price = None)
    ∧ (∀ pre k p post,
         table = pre ++ (k, JNumber p) :: post → lower k = product_code →
         (∀ k' v', (k', v') ∈ post → lower k' ≠ product_code) →
         price = Some p)
    ∧ (table = [(py "p100", JNumber nine_99)] →
       form_get form "product_code" = py "P100" →
       form !! "product_qty" = Some (py "3") →
       price = Some nine_99 ∧ n = 3).
Proof.
  intros Hauth product_code Hcode Hqty Hfile Hsearch r. subst r.
  exists (match lowered ∅ table !! product_code with
          | Some (JNumber price) => Some price
          | Some JNull | None => None
          end).
  split_and!.
  - unfold presupuesto_details, lowered. fold product_code. unfold_monad.
    destruct (Hauth []) as (uid & -> & Huid). unfold_monad.
    unfold truthy. apply Z.eqb_neq in Huid. rewrite Huid. unfold_monad.
    assert (nonempty product_code = true) as -> by (by destruct product_code).
    destruct (form !! "product_qty") as [v|].
    + rewrite Hqty. unfold_monad. rewrite Hfile. unfold_monad.
      rewrite Hsearch. run_cases; reflexivity.
    + rewrite Hqty. unfold_monad. rewrite Hfile. unfold_monad.
      rewrite Hsearch. run_cases; reflexivity.
  - intros Hmiss. by rewrite lowered_miss, lookup_empty.
  - intros pre k p post -> Hk Hpost. by rewrite (lowered_last pre k _ post).
  - intros -> Hraw Hthree. rewrite Hthree in Hqty.
    split; [|by injection Hqty].
    subst product_code. rewrite Hraw. reflexivity.
Qed.

(** C7, the failing run: a quantity field that is not a number, or
    that is submitted empty, makes [int] raise [ValueError] out of
    [presupuesto_details]: no line is created with quantity 1, and
    nothing is flashed. *)
Theorem presupuesto_details_bad_quantity session presupuesto_id :
  let r1 := run (presupuesto_details POST (line_form "P100" "abc") presupuesto_id)
                calm session in
  let r2 := run (presupuesto_details POST (line_form "P100" "") presupuesto_id)
                calm session in
  (r1.2 = Raises ValueError ∧ omap created_line (trace_of r1) = []
   ∧ trace_of r1 = [ev_call common_authenticate])
  ∧ (r2.2 = Raises ValueError ∧ omap created_line (trace_of r2) = []
     ∧ trace_of r2 = [ev_call common_authenticate]).
Proof. split_and!; reflexivity. Qed.

(** An absent quantity field is the quantity 1. *)
Lemma presupuesto_details_default_quantity session presupuesto_id :
  let form : gmap string pystr := {[ "product_code" := py "P100" ]} in
  let r := run (presupuesto_details POST form presupuesto_id) calm session in
  lv_product_uom_qty <$> omap created_line (trace_of r) = [1].
Proof. reflexivity. Qed.
End quotation_facts.

Lemma presupuesto_details_price_override_witness :
  let r := run (presupuesto_details (U:=ascii_only) POST (line_form "P100" "3") 500)
               (price_file [(py "p100", JNumber nine_99)]) ∅ in
  omap created_line (trace_of r)
  = [{| lv_order_id := 500; lv_product_id := 9;
        lv_product_uom_qty := 3; lv_price_unit := Some nine_99 |}].
Proof.
  intros r.
  destruct (presupuesto_details_price_override (U:=ascii_only)
              (line_form "P100" "3") (price_file [(py "p100", JNumber nine_99)]) ∅
              500 [(py "p100", JNumber nine_99)] 9 [] 3)
    as (price & Hline & _ & _ & Hexample).
  - intros tr. exists 2. split; [reflexivity|discriminate].
  - discriminate.
  - reflexivity.
  - reflexivity.
  - reflexivity.
  - destruct Hexample as [-> _]; [reflexivity..|]. exact Hline.
Defined.

(** ** Order confirmation *)
Section confirmation_facts.
Context {U : Unicode}.

(** C1, the failing run: when the contact search of the CRM raises a
    transport error, the exception leaves [confirm_presupuesto]: it
    is not logged, [action_confirm] is never called and no success is
    reported. *)
Theorem confirm_presupuesto_crm_fault session presupuesto_id :
  let r := run (confirm_presupuesto (cfg:=default_config) presupuesto_id)
               crm_unreachable session in
  r.2 = Raises ConnectionError
  ∧ omap confirmed_order (trace_of r) = []
  ∧ omap (logged ERROR) (trace_of r) = []
  ∧ omap (flashed "success") (trace_of r) = [].
Proof. split_and!; reflexivity. Qed.

Context {cfg : Config}.

(** What the handler does tolerate.  First, when the three requests
    of the contact upsert are answered, with whatever status, the
    upsert returns; it confirms no order and flashes nothing. *)
Lemma clientify_returns (w : world) client_data s :
  (∀ tr e, ∃ resp, w _ tr (requests_get_contacts e) = Returns resp) →
  (∀ tr id data, ∃ status, w _ tr (requests_patch_contact id data) = Returns status) →
  (∀ tr data, ∃ resp, w _ tr (requests_post_contact data) = Returns resp
                      ∧ (status_in (cr_status_code resp) [200; 201] = true
                         → is_Some (cr_id resp))) →
  ∃ s' res tr',
    create_or_update_client_in_clientify client_data w s = (s', Returns res)
    ∧ st_trace s' = st_trace s ++ tr'
    ∧ omap confirmed_order tr' = []
    ∧ omap (flashed "success") tr' = [].
Proof.
  intros Hget Hpatch Hpost. destruct s as [sess tr0].
  unfold create_or_update_client_in_clientify.
  destruct CLIENTIFY_ENABLED; unfold_monad.
  2: { do 3 eexists. split_and!; reflexivity. }
  destruct (Hget tr0 (ci_email client_data)) as [resp ->]. unfold_monad.
  destruct (_ && _); [destruct (List.find _ _) as [exact_match|]|]; unfold_monad.
  2,3: match goal with
       | |- context [?f _ ?tr (requests_post_contact ?d)] =>
           destruct (Hpost tr d) as (cresp & -> & Hid)
       end; unfold_monad;
       destruct (status_in (cr_status_code cresp) [200; 201]);
       [destruct (Hid eq_refl) as [cid ->]|]; unfold_monad;
       do 3 eexists; cbn [st_trace]; rewrite <-!(assoc_L (++));
       split_and!; reflexivity.
  match goal with
  | |- context [?f _ ?tr (requests_patch_contact ?i ?d)] =>
      destruct (Hpatch tr i d) as [status ->]
  end.
  unfold_monad. destruct (status_in status [200; 204]); unfold_monad.
  all: do 3 eexists; cbn [st_trace]; rewrite <-!(assoc_L (++)).
  all: split_and!; reflexivity.
Qed.

(** Then, once the upsert has returned, whatever the answers to the
    warehouse write and to the 'Valor Pedido' update, [action_confirm]
    is called, and the user is told of success when it returns. *)
Lemma confirm_presupuesto_confirms (w : world) session presupuesto_id order orders
    partner_id partner partners :
  (∀ tr, ∃ uid, w _ tr common_authenticate = Returns (Some uid) ∧ uid ≠ 0) →
  (∀ tr, w _ tr (read_order presupuesto_id) = Returns (order :: orders)) →
  o_partner_id order = Some partner_id →
  (∀ tr, w _ tr (read_partner partner_id) = Returns (partner :: partners)) →
  (∀ tr e, ∃ resp, w _ tr (requests_get_contacts e) = Returns resp) →
  (∀ tr id data, ∃ status, w _ tr (requests_patch_contact id data) = Returns status) →
  (∀ tr data, ∃ resp, w _ tr (requests_post_contact data) = Returns resp
                      ∧ (status_in (cr_status_code resp) [200; 201] = true
                         → is_Some (cr_id resp))) →
  let r := run (confirm_presupuesto presupuesto_id) w session in
  omap confirmed_order (trace_of r) = [[presupuesto_id]]
  ∧ r.2 = Returns (redirect_payment presupuesto_id)
  ∧ ((∀ tr ids, w _ tr (action_confirm ids) = Returns ()) →
     omap (flashed "success") (trace_of r)
     = ["Presupuesto transformado en pedido con éxito!"]).
Proof.
  intros Hauth Horder Hpartner Hread Hget Hpatch Hpost r. subst r.
  unfold confirm_presupuesto, odoo_authenticate.
  unfold_monad.
  destruct (Hauth []) as (uid & -> & Huid). unfold_monad.
  rewrite (truthy_nonzero uid Huid). unfold_monad.
  rewrite Horder. unfold_monad. rewrite Hpartner. unfold_monad.
  rewrite Hread. unfold_monad.
  match goal with
  | |- context [create_or_update_client_in_clientify ?i] => set (info := i)
  end.
  ask_world; [branch|].
  all: destruct CLIENTIFY_ENABLED; unfold_monad.
  all: try match goal with
       | |- context [create_or_update_client_in_clientify ?i ?f ?s] =>
           destruct (clientify_returns f i s Hget Hpatch Hpost)
             as ([sess1 tr1] & [tag cid] & tr' & -> & Htr & Hconf & Hflash);
           cbn [st_trace] in Htr; subst tr1; unfold_monad
       end.
  all: repeat first [ask_world | branch].
  all: split_and!; [ | reflexivity | intros Hok ].
  all: try (rewrite Hok in *; discriminate).
  all: rewrite ?omap_cons, ?omap_app, ?Hconf, ?Hflash; reflexivity.
Qed.
End confirmation_facts.
